(** * KickAI Judge Computer Vision Service: [computer-vision/main.py]

    A shallow embedding of the service's entry module: the four route
    handlers, the route table the [@app.get] / [@app.post] decorators
    build, and the [__main__] block that reads the configuration from the
    process environment and hands it to [uvicorn.run]. *)

From stdpp Require Import base option list strings gmap pretty.
From Stdlib Require Import ZArith Ascii String Lia.

Open Scope Z_scope.
Open Scope string_scope.

(** ** Values returned by the handlers

    Every handler returns a Python [dict] literal that FastAPI serialises
    to a JSON object.  A [dict] keeps its keys in insertion order, so an
    object is an association list. *)

Unset Elimination Schemes.
Inductive json : Type :=
| JNull
| JBool (b : bool)
| JInt (n : Z)
| JStr (s : string)
| JArr (items : list json)
| JObj (fields : list (string * json)).
Set Elimination Schemes.

(** [d.get(k)] on the fields of an object. *)
Fixpoint assoc (k : string) (fields : list (string * json)) : option json :=
  match fields with
  | [] => None
  | (k', v) :: rest => if String.eqb k k' then Some v else assoc k rest
  end.

Definition field (k : string) (j : json) : option json :=
  match j with
  | JObj fields => assoc k fields
  | _ => None
  end.

Definition keys (j : json) : list string :=
  match j with
  | JObj fields => fst <$> fields
  | _ => []
  end.

(** Does the value hold a sequence anywhere, at any depth? *)
Fixpoint has_array (j : json) : bool :=
  match j with
  | JArr _ => true
  | JObj fields =>
      (fix go (l : list (string * json)) : bool :=
         match l with
         | [] => false
         | (_, v) :: rest => has_array v || go rest
         end) fields
  | _ => false
  end.

(** ** Ambient state and requests

    What a handler could observe without being handed anything: the
    process environment ([os.environ], after [load_dotenv()] has merged the
    [.env] file into it) and the wall clock (seconds since the epoch). *)

Record World : Type := mkWorld {
  environ : gmap string string;
  clock : Z
}.

Inductive http_method : Type :=
| GET | POST | PUT | DELETE | PATCH | HEAD | OPTIONS.

#[global] Instance http_method_eq_dec : EqDecision http_method.
Proof. solve_decision. Defined.

(** A request as the router sees it: method, decoded path, query
    parameters, headers and payload. *)
Record Request : Type := mkRequest {
  meth : http_method;
  path : string;
  query : list (string * string);
  headers : list (string * string);
  body : string
}.

(** ** The handlers

    All four are declared without parameters, so FastAPI calls them with no
    argument: nothing of the request reaches them.  The ambient state is
    the only thing they could read. *)

Definition root (_ : World) : json :=
  JObj [ ("service", JStr "KickAI Judge Computer Vision");
         ("version", JStr "1.0.0");
         ("status", JStr "running");
         ("endpoints",
           JObj [ ("health", JStr "/health");
                  ("process_video", JStr "/api/v1/process-video");
                  ("analyze_frame", JStr "/api/v1/analyze-frame") ]) ].

Definition health_check (_ : World) : json :=
  JObj [ ("status", JStr "healthy");
         ("service", JStr "cv-service");
         ("timestamp", JStr "2024-01-01T00:00:00Z") ].

Definition process_video (_ : World) : json :=
  JObj [ ("message", JStr "Video processing endpoint - to be implemented");
         ("status", JStr "not_implemented") ].

Definition analyze_frame (_ : World) : json :=
  JObj [ ("message", JStr "Frame analysis endpoint - to be implemented");
         ("status", JStr "not_implemented") ].

(** ** The application: routes in the order the decorators register them *)

Record route : Type := mkRoute {
  route_method : http_method;
  route_path : string;
  endpoint : World -> json
}.

Definition routes : list route :=
  [ mkRoute GET "/" root;
    mkRoute GET "/health" health_check;
    mkRoute POST "/api/v1/process-video" process_video;
    mkRoute POST "/api/v1/analyze-frame" analyze_frame ].

Definition line_feed : string := String "010" EmptyString.

(** The router compiles the path [p] of a route to the pattern
    ["^" + re.escape(p) + "$"] and applies [re.match] to the path of the
    request.  Without the multi-line flag [$] matches at the end of the
    text and also just before a line feed that ends the text, so [p]
    followed by one line feed matches as [p] does. *)
Definition path_matches (p : string) (s : string) : bool :=
  String.eqb s p || String.eqb s (p +:+ line_feed).

Definition route_matches (req : Request) (r : route) : bool :=
  bool_decide (meth req = route_method r)
  && path_matches (route_path r) (path req).

(** The first matching route answers with the value of its handler.  A
    request that matches none of the four is answered by the framework
    (documentation pages, 404, 405, CORS preflight), which is [None] here.
    The CORS middleware wrapped around the router adds headers to an
    answer and leaves its body alone, so the body is all that is kept. *)
Definition app (w : World) (req : Request) : option json :=
  match List.find (route_matches req) routes with
  | Some r => Some (endpoint r w)
  | None => None
  end.

(** The requests the two analysis routes answer. *)
Definition is_analysis_request (req : Request) : bool :=
  bool_decide (meth req = POST)
  && (path_matches "/api/v1/process-video" (path req)
      || path_matches "/api/v1/analyze-frame" (path req)).

(** ** Startup: the [__main__] block *)

Inductive exn : Type :=
| ValueError
| UnicodeEncodeError.

(** The keyword arguments of the call [uvicorn.run("main:app", ...)]. *)
Record uvicorn_run : Type := mkRun {
  run_app : string;
  run_host : string;
  run_port : Z;
  run_reload : bool
}.

(** What running the module as a script does: either an exception leaves
    the block before [uvicorn.run] is reached, or the banner is printed
    and [uvicorn.run] is called with the given arguments.  What the call
    does with them (binding the port, serving) is the server's business. *)
Inductive outcome : Type :=
| Raised (e : exn)
| Serving (stdout : string) (call : uvicorn_run).

(** The boxing glove U+1F94A that opens the banner, as its UTF-8 bytes. *)
Definition boxing_glove : string :=
  String "240" (String "159" (String "165" (String "138" ""))).

(** The f-string handed to [print]. *)
Definition banner (host : string) (port : Z) : string :=
  boxing_glove +:+ " Starting KickAI Judge CV Service on "
    +:+ host +:+ ":" +:+ pretty port.

(** [os.getenv(key, default)]: the value when the variable is set, the
    default (a value of any type) otherwise. *)
Definition getenv {A : Type} (env : gmap string string) (key : string) (dflt : A)
  : string + A :=
  match env !! key with
  | Some v => inl v
  | None => inr dflt
  end.

Section Startup.

(** The builtin [int] on a [str], in base ten: the integer the text
    denotes, or [None] where Python raises [ValueError] because the text
    is not a valid integer literal. *)
Variable int_of_str : string -> option Z.

(** Whether [sys.stdout], with its encoding and error handler, can
    encode a text: where it cannot, [print] raises [UnicodeEncodeError]
    and writes nothing.  Like the behaviour of [int], this is settled when
    the interpreter starts, outside the block. *)
Variable stdout_encodes : string -> bool.

(** [int(x)] for [x] either a [str] or already an [int]. *)
Definition int (x : string + Z) : option Z :=
  match x with
  | inl s => int_of_str s
  | inr n => Some n
  end.

Definition main (env : gmap string string) : outcome :=
  match int (getenv env "CV_PORT" 8000) with
  | None => Raised ValueError
  | Some port =>
      let host :=
        match getenv env "CV_HOST" "0.0.0.0" with
        | inl v => v
        | inr d => d
        end in
      if stdout_encodes (banner host port) then
        Serving (banner host port)
          {| run_app := "main:app";
             run_host := host;
             run_port := port;
             run_reload :=
               if decide (env !! "ENV" = Some "development")
               then true else false |}
      else Raised UnicodeEncodeError
  end.

End Startup.

(** *** [int] on ASCII text

    For text made of ASCII characters only, [int] accepts optional white
    space, an optional sign, decimal digits with single underscores allowed
    between digits, and optional white space.  [int_ascii] is [int] on
    such text as long as the text stays under the interpreter's cap on the
    number of digits (4300 by default since Python 3.11, never settable
    below 640); beyond ASCII, [int] also takes the decimal digits and the
    white space of other scripts, which [int_ascii] does not. *)

Definition is_space (c : ascii) : bool :=
  let n := nat_of_ascii c in
  ((9 <=? n)%nat && (n <=? 13)%nat) || (n =? 32)%nat.

Definition digit_value (c : ascii) : option Z :=
  let n := Z.of_nat (nat_of_ascii c) in
  if ((48 <=? n) && (n <=? 57))%Z then Some (n - 48) else None.

Fixpoint lstrip (s : string) : string :=
  match s with
  | String c rest => if is_space c then lstrip rest else s
  | EmptyString => EmptyString
  end.

Fixpoint all_space (s : string) : bool :=
  match s with
  | String c rest => is_space c && all_space rest
  | EmptyString => true
  end.

(** [after_digit] tells whether the previous character was a digit: only
    then may an underscore, trailing white space or the end follow. *)
Fixpoint scan_digits (acc : Z) (after_digit : bool) (s : string) : option Z :=
  match s with
  | EmptyString => if after_digit then Some acc else None
  | String c rest =>
      match digit_value c with
      | Some d => scan_digits (10 * acc + d) true rest
      | None =>
          if after_digit && Ascii.eqb c "_" then scan_digits acc false rest
          else if after_digit && all_space s then Some acc
          else None
      end
  end.

Definition int_ascii (s : string) : option Z :=
  match lstrip s with
  | String "-" rest => Z.opp <$> scan_digits 0 false rest
  | String "+" rest => scan_digits 0 false rest
  | rest => scan_digits 0 false rest
  end.

(** A character that no integer literal contains: neither white space,
    nor a digit, nor an underscore, nor a sign. *)
Definition foreign (c : ascii) : bool :=
  negb (is_space c)
  && match digit_value c with Some _ => false | None => true end
  && negb (Ascii.eqb c "_") && negb (Ascii.eqb c "+") && negb (Ascii.eqb c "-").

Fixpoint has_foreign (s : string) : bool :=
  match s with
  | String c rest => foreign c || has_foreign rest
  | EmptyString => false
  end.

(** ** Observations used to state the properties *)

(** The environment with [ENV] set to [v], or unset for [None]. *)
Definition set_ENV (v : option string) (env : gmap string string)
  : gmap string string :=
  partial_alter (fun _ => v) "ENV" env.

Definition with_environ (env : gmap string string) (w : World) : World :=
  {| environ := env; clock := clock w |}.

Definition with_clock (t : Z) (w : World) : World :=
  {| environ := environ w; clock := t |}.

(** An outcome with the auto-reload argument blanked out. *)
Definition drop_reload (o : outcome) : outcome :=
  match o with
  | Raised e => Raised e
  | Serving out call =>
      Serving out
        {| run_app := run_app call;
           run_host := run_host call;
           run_port := run_port call;
           run_reload := false |}
  end.

(** *** Shapes of the data model of the specification

    These follow the field lists of the specification's data model, not
    the code: the code declares none of these types. *)

Definition has_field (k : string) (j : json) : bool :=
  match field k j with
  | Some _ => true
  | None => false
  end.

Definition array_of (p : json -> bool) (j : json) : bool :=
  match j with
  | JArr items => forallb p items
  | _ => false
  end.

Definition some_field (p : json -> bool) (j : json) : bool :=
  match j with
  | JObj fields => existsb (fun kv => p (snd kv)) fields
  | _ => false
  end.

(** StrikeEvent: {start_frame, end_frame, strike_type, confidence}. *)
Definition is_strike_event (j : json) : bool :=
  has_field "start_frame" j && has_field "end_frame" j
  && has_field "strike_type" j && has_field "confidence" j.

(** PoseEstimate: {frame_index, person_id, keypoints}. *)
Definition is_pose_estimate (j : json) : bool :=
  has_field "frame_index" j && has_field "person_id" j
  && has_field "keypoints" j.

(** AnalysisReport: {video_id, ordered sequence of StrikeEvent,
    total_frames_processed}.  The sequence may sit under any key. *)
Definition is_analysis_report (j : json) : bool :=
  has_field "video_id" j
  && some_field (array_of is_strike_event) j
  && has_field "total_frames_processed" j.

(** The answer of the frame analysis: a set of PoseEstimate and a
    sequence of StrikeEvent, each possibly empty, under any keys. *)
Definition is_frame_analysis (j : json) : bool :=
  some_field (array_of is_pose_estimate) j
  && some_field (array_of is_strike_event) j.

(** *** Sample inputs *)

Definition idle_world : World := {| environ := ∅; clock := 1793664000 |}.

Definition upload_request : Request :=
  {| meth := POST;
     path := "/api/v1/process-video";
     query := [("video_id", "bout-17")];
     headers := [("content-type", "video/mp4")];
     body := "ftypisom" |}.

Definition frame_request : Request :=
  {| meth := POST;
     path := "/api/v1/analyze-frame";
     query := [];
     headers := [("content-type", "image/png")];
     body := "PNG" |}.

Definition health_request : Request :=
  {| meth := GET; path := "/health"; query := []; headers := []; body := "" |}.

(** *** Further observations *)

(** Dispatch over any list of routes; [app] is [serve routes]. *)
Definition serve (rs : list route) (w : World) (req : Request) : option json :=
  match List.find (route_matches req) rs with
  | Some r => Some (endpoint r w)
  | None => None
  end.

(** The paths that the answer of [root] lists under [endpoints]. *)
Definition advertised (w : World) (p : string) : Prop :=
  exists dir name,
    field "endpoints" (root w) = Some dir /\ field name dir = Some (JStr p).

(** Text made of printable ASCII characters, space included. *)
Fixpoint printable (s : string) : bool :=
  match s with
  | String c rest =>
      ((32 <=? nat_of_ascii c)%nat && (nat_of_ascii c <=? 126)%nat)
      && printable rest
  | EmptyString => true
  end.

(** The integers whose decimal text every interpreter converts: since
    Python 3.11 [int] refuses, by default, a text of more than 4300
    digits. *)
Definition within_digit_cap (n : Z) : Prop := Z.abs n < 10 ^ 4300.


(** A standard output in UTF-8 encodes every text; one in ASCII encodes
    the texts without a byte beyond 127. *)
Definition utf8_stdout (_ : string) : bool := true.

Fixpoint ascii_stdout (s : string) : bool :=
  match s with
  | String c rest => (nat_of_ascii c <? 128)%nat && ascii_stdout rest
  | EmptyString => true
  end.

Definition shell_environ : gmap string string :=
  {[ "PATH" := "/usr/bin"; "CV_HOST" := "127.0.0.1"; "CV_PORT" := "9000" ]}.

(** * Properties *)

(** ** Routing *)

Ltac dispatch :=
  unfold app, routes, route_matches; simpl;
  repeat match goal with
         | H : meth _ = _ |- _ => rewrite H
         | H : path _ = _ |- _ => rewrite H
         end;
  reflexivity.

Lemma path_matches_inv (p s : string) :
  path_matches p s = true -> s = p \/ s = p +:+ line_feed.
Proof.
  unfold path_matches. intros H.
  apply orb_prop in H as [H|H]; apply String.eqb_eq in H; auto.
Qed.

Lemma app_root_match (w : World) (req : Request) :
  meth req = GET -> path_matches "/" (path req) = true ->
  app w req = Some (root w).
Proof. intros Hm Hp. apply path_matches_inv in Hp as [Hp|Hp]; dispatch. Qed.

Lemma app_health_check_match (w : World) (req : Request) :
  meth req = GET -> path_matches "/health" (path req) = true ->
  app w req = Some (health_check w).
Proof. intros Hm Hp. apply path_matches_inv in Hp as [Hp|Hp]; dispatch. Qed.

Lemma app_process_video_match (w : World) (req : Request) :
  meth req = POST ->
  path_matches "/api/v1/process-video" (path req) = true ->
  app w req = Some (process_video w).
Proof. intros Hm Hp. apply path_matches_inv in Hp as [Hp|Hp]; dispatch. Qed.

Lemma app_analyze_frame_match (w : World) (req : Request) :
  meth req = POST ->
  path_matches "/api/v1/analyze-frame" (path req) = true ->
  app w req = Some (analyze_frame w).
Proof. intros Hm Hp. apply path_matches_inv in Hp as [Hp|Hp]; dispatch. Qed.

Lemma is_analysis_request_inv (req : Request) :
  is_analysis_request req = true ->
  meth req = POST
  /\ (path_matches "/api/v1/process-video" (path req) = true
      \/ path_matches "/api/v1/analyze-frame" (path req) = true).
Proof.
  unfold is_analysis_request. intros H.
  apply andb_prop in H as [Hm Hp]. apply bool_decide_eq_true in Hm.
  split; [exact Hm|]. by apply orb_prop in Hp.
Qed.

(** Whatever the application answers is the value of one of the four
    handlers: there is no other source of responses in the module. *)
Lemma app_Some_inv (w : World) (req : Request) (resp : json) :
  app w req = Some resp ->
  resp = root w \/ resp = health_check w
  \/ resp = process_video w \/ resp = analyze_frame w.
Proof.
  unfold app. destruct (List.find (route_matches req) routes) as [r|] eqn:Hf;
    [|discriminate].
  intros [= <-]. apply List.find_some in Hf as [Hin _].
  unfold routes in Hin. simpl in Hin.
  destruct Hin as [<-|[<-|[<-|[<-|[]]]]]; simpl; auto.
Qed.

(** No answer of the application holds a sequence, at any depth: no list
    of events, poses or frames ever leaves the service. *)
Lemma answers_hold_no_sequence (w : World) (req : Request) (resp : json) :
  app w req = Some resp -> has_array resp = false.
Proof.
  intros H. apply app_Some_inv in H as [-> | [-> | [-> | ->]]]; reflexivity.
Qed.

(** The handlers read nothing of the ambient state. *)
Lemma app_world_irrelevant (w1 w2 : World) (req : Request) :
  app w1 req = app w2 req.
Proof.
  unfold app. destruct (List.find (route_matches req) routes) as [r|] eqn:Hf;
    [|reflexivity].
  apply List.find_some in Hf as [Hin _].
  unfold routes in Hin. simpl in Hin.
  destruct Hin as [<-|[<-|[<-|[<-|[]]]]]; reflexivity.
Qed.

(** ** The placeholder endpoints *)

(** C1: every request routed to process-video or analyze-frame is answered,
    in any state of the service, by an object whose [status] field is the
    string "not_implemented". *)
Theorem placeholder_status_not_implemented (w : World) (req : Request) :
  is_analysis_request req = true ->
  exists resp,
    app w req = Some resp /\ field "status" resp = Some (JStr "not_implemented").
Proof.
  intros H. apply is_analysis_request_inv in H as [Hm [Hp|Hp]].
  - exists (process_video w).
    split; [by apply app_process_video_match|reflexivity].
  - exists (analyze_frame w).
    split; [by apply app_analyze_frame_match|reflexivity].
Qed.

Lemma placeholder_status_not_implemented_witness :
  is_analysis_request upload_request = true
  /\ exists resp,
       app idle_world upload_request = Some resp
       /\ field "status" resp = Some (JStr "not_implemented").
Proof.
  split; [reflexivity|].
  apply (placeholder_status_not_implemented idle_world upload_request).
  reflexivity.
Defined.

(** C2, as stated, fails: the answer to an upload carrying a video and a
    video identifier is not an AnalysisReport. *)
Lemma upload_answer_is_no_report :
  ~ (exists resp,
       app idle_world upload_request = Some resp
       /\ is_analysis_report resp = true).
Proof. intros [resp [Happ Hrep]]. vm_compute in Happ. by injection Happ as <-. Qed.

(** C2, amended: whatever payload and identifier a request to
    process-video carries, the answer is the fixed object with exactly the
    two string fields [message] and [status]; it has no [video_id], no
    [total_frames_processed], and holds no sequence at all. *)
Theorem process_video_answer (w : World) (req : Request) :
  meth req = POST -> path_matches "/api/v1/process-video" (path req) = true ->
  exists resp,
    app w req = Some resp
    /\ resp = JObj [ ("message", JStr "Video processing endpoint - to be implemented");
                     ("status", JStr "not_implemented") ]
    /\ keys resp = ["message"; "status"]
    /\ field "video_id" resp = None
    /\ field "total_frames_processed" resp = None
    /\ has_array resp = false
    /\ is_analysis_report resp = false.
Proof.
  intros Hm Hp. exists (process_video w).
  split; [by apply app_process_video_match|]. repeat split.
Qed.

Lemma process_video_answer_witness :
  exists resp,
    app idle_world upload_request = Some resp
    /\ resp = JObj [ ("message", JStr "Video processing endpoint - to be implemented");
                     ("status", JStr "not_implemented") ]
    /\ keys resp = ["message"; "status"]
    /\ field "video_id" resp = None
    /\ field "total_frames_processed" resp = None
    /\ has_array resp = false
    /\ is_analysis_report resp = false.
Proof.
  apply (process_video_answer idle_world upload_request); reflexivity.
Defined.

(** C3, as stated, fails: the answer to a request carrying one image holds
    neither a PoseEstimate set nor a StrikeEvent sequence. *)
Lemma frame_answer_has_no_poses :
  ~ (exists resp,
       app idle_world frame_request = Some resp
       /\ is_frame_analysis resp = true).
Proof. intros [resp [Happ Hfa]]. vm_compute in Happ. by injection Happ as <-. Qed.

(** C3, amended: whatever image a request to analyze-frame carries, the
    answer is the fixed object with exactly the two string fields [message]
    and [status]; it holds no sequence, hence no PoseEstimate set and no
    StrikeEvent. *)
Theorem analyze_frame_answer (w : World) (req : Request) :
  meth req = POST -> path_matches "/api/v1/analyze-frame" (path req) = true ->
  exists resp,
    app w req = Some resp
    /\ resp = JObj [ ("message", JStr "Frame analysis endpoint - to be implemented");
                     ("status", JStr "not_implemented") ]
    /\ keys resp = ["message"; "status"]
    /\ has_array resp = false
    /\ some_field (array_of is_pose_estimate) resp = false
    /\ some_field (array_of is_strike_event) resp = false.
Proof.
  intros Hm Hp. exists (analyze_frame w).
  split; [by apply app_analyze_frame_match|]. repeat split.
Qed.

Lemma analyze_frame_answer_witness :
  exists resp,
    app idle_world frame_request = Some resp
    /\ resp = JObj [ ("message", JStr "Frame analysis endpoint - to be implemented");
                     ("status", JStr "not_implemented") ]
    /\ keys resp = ["message"; "status"]
    /\ has_array resp = false
    /\ some_field (array_of is_pose_estimate) resp = false
    /\ some_field (array_of is_strike_event) resp = false.
Proof.
  apply (analyze_frame_answer idle_world frame_request); reflexivity.
Defined.

(** C6, as stated, fails: two runs on the same upload give the same
    answer, but that answer is not an AnalysisReport. *)
Lemma rerun_yields_no_report :
  ~ (exists report,
       app idle_world upload_request = Some report
       /\ app (with_clock 1793750400 idle_world) upload_request = Some report
       /\ is_analysis_report report = true).
Proof.
  intros (report & Happ & _ & Hrep). vm_compute in Happ.
  by injection Happ as <-.
Qed.

(** C6, amended: the analysis endpoints are deterministic.  Two requests
    to the same analysis endpoint with the same payload are both answered,
    and with the same object, whatever the state of the service at either
    time; that object is the fixed placeholder of the endpoint, not an
    AnalysisReport. *)
Theorem analysis_deterministic (w1 w2 : World) (r1 r2 : Request) :
  is_analysis_request r1 = true ->
  meth r2 = meth r1 -> path r2 = path r1 -> body r2 = body r1 ->
  exists resp,
    app w1 r1 = Some resp /\ app w2 r2 = Some resp
    /\ (path_matches "/api/v1/process-video" (path r1) = true ->
        resp = JObj [ ("message",
                        JStr "Video processing endpoint - to be implemented");
                      ("status", JStr "not_implemented") ])
    /\ (path_matches "/api/v1/analyze-frame" (path r1) = true ->
        resp = JObj [ ("message",
                        JStr "Frame analysis endpoint - to be implemented");
                      ("status", JStr "not_implemented") ])
    /\ is_analysis_report resp = false.
Proof.
  intros H Hm Hp _. apply is_analysis_request_inv in H as [Hm1 [Hp1|Hp1]].
  - exists (process_video w1). repeat split.
    + by apply app_process_video_match.
    + rewrite (app_process_video_match w2 r2) by congruence. reflexivity.
    + intros Hp2.
      apply path_matches_inv in Hp1 as [Hp1|Hp1]; rewrite Hp1 in Hp2;
        discriminate.
  - exists (analyze_frame w1). repeat split.
    + by apply app_analyze_frame_match.
    + rewrite (app_analyze_frame_match w2 r2) by congruence. reflexivity.
    + intros Hp2.
      apply path_matches_inv in Hp1 as [Hp1|Hp1]; rewrite Hp1 in Hp2;
        discriminate.
Qed.

Lemma analysis_deterministic_witness :
  exists resp,
    app idle_world upload_request = Some resp
    /\ app (with_clock 1793750400 idle_world) upload_request = Some resp
    /\ (path_matches "/api/v1/process-video" (path upload_request) = true ->
        resp = JObj [ ("message",
                        JStr "Video processing endpoint - to be implemented");
                      ("status", JStr "not_implemented") ])
    /\ (path_matches "/api/v1/analyze-frame" (path upload_request) = true ->
        resp = JObj [ ("message",
                        JStr "Frame analysis endpoint - to be implemented");
                      ("status", JStr "not_implemented") ])
    /\ is_analysis_report resp = false.
Proof.
  apply (analysis_deterministic idle_world (with_clock 1793750400 idle_world)
           upload_request upload_request); reflexivity.
Defined.

(** ** The health endpoint *)

(** C4: every request to the health endpoint gets the same static object,
    whatever the request carries and whatever the state of the service. *)
Theorem health_static (w1 w2 : World) (r1 r2 : Request) :
  meth r1 = GET -> path_matches "/health" (path r1) = true ->
  meth r2 = GET -> path_matches "/health" (path r2) = true ->
  app w1 r1 = app w2 r2
  /\ app w1 r1 = Some (JObj [ ("status", JStr "healthy");
                              ("service", JStr "cv-service");
                              ("timestamp", JStr "2024-01-01T00:00:00Z") ]).
Proof.
  intros Hm1 Hp1 Hm2 Hp2.
  rewrite (app_health_check_match w1 r1), (app_health_check_match w2 r2)
    by done.
  split; reflexivity.
Qed.

Lemma health_static_witness :
  app idle_world health_request
  = app (with_environ {[ "ENV" := "development" ]} idle_world)
        {| meth := GET; path := "/health"; query := [("verbose", "1")];
           headers := [("accept", "*/*")]; body := "ping" |}
  /\ app idle_world health_request
     = Some (JObj [ ("status", JStr "healthy");
                    ("service", JStr "cv-service");
                    ("timestamp", JStr "2024-01-01T00:00:00Z") ]).
Proof.
  apply (health_static idle_world
           (with_environ {[ "ENV" := "development" ]} idle_world)
           health_request
           {| meth := GET; path := "/health"; query := [("verbose", "1")];
              headers := [("accept", "*/*")]; body := "ping" |});
    reflexivity.
Defined.

(** C9: the [timestamp] field of every health answer is the constant
    "2024-01-01T00:00:00Z"; the wall clock has no part in it. *)
Theorem health_timestamp_constant (w : World) (req : Request) (now : Z) :
  meth req = GET -> path_matches "/health" (path req) = true ->
  exists resp,
    app (with_clock now w) req = Some resp
    /\ field "timestamp" resp = Some (JStr "2024-01-01T00:00:00Z").
Proof.
  intros Hm Hp. exists (health_check (with_clock now w)).
  split; [by apply app_health_check_match|reflexivity].
Qed.

Lemma health_timestamp_constant_witness :
  exists resp,
    app (with_clock 1793750400 idle_world) health_request = Some resp
    /\ field "timestamp" resp = Some (JStr "2024-01-01T00:00:00Z").
Proof.
  apply (health_timestamp_constant idle_world health_request 1793750400);
    reflexivity.
Defined.

(** ** Startup *)

(** *** Text that [int_ascii] rejects *)

Lemma foreign_inv (c : ascii) :
  foreign c = true ->
  is_space c = false /\ digit_value c = None
  /\ Ascii.eqb c "_" = false /\ Ascii.eqb c "+" = false
  /\ Ascii.eqb c "-" = false.
Proof.
  unfold foreign. intros H.
  repeat (apply andb_prop in H as [H ?]).
  destruct (digit_value c); [discriminate|].
  repeat split; by apply negb_true_iff.
Qed.

Lemma all_space_foreign (s : string) :
  has_foreign s = true -> all_space s = false.
Proof.
  induction s as [|c rest IH]; simpl; [discriminate|].
  intros H. apply orb_prop in H as [H|H].
  - apply foreign_inv in H as [-> _]. reflexivity.
  - rewrite (IH H). apply andb_false_r.
Qed.

Lemma scan_digits_foreign (s : string) :
  has_foreign s = true ->
  forall acc after_digit, scan_digits acc after_digit s = None.
Proof.
  induction s as [|c rest IH]; [discriminate|].
  intros H acc after_digit.
  pose proof (all_space_foreign _ H) as Hsp.
  cbn [scan_digits]. rewrite Hsp, andb_false_r.
  cbn [has_foreign] in H. apply orb_prop in H as [H|H].
  - apply foreign_inv in H as (_ & -> & -> & _). by rewrite andb_false_r.
  - destruct (digit_value c); [by apply IH|].
    destruct (after_digit && Ascii.eqb c "_"); [by apply IH|reflexivity].
Qed.

Lemma lstrip_foreign (s : string) :
  has_foreign s = true -> has_foreign (lstrip s) = true.
Proof.
  induction s as [|c rest IH]; [discriminate|].
  intros H. cbn [lstrip]. destruct (is_space c) eqn:Hc; [|exact H].
  apply IH. cbn [has_foreign] in H. apply orb_prop in H as [H|H]; [|exact H].
  apply foreign_inv in H as [Hc' _]. congruence.
Qed.

(** A text with a letter, a dot or any other foreign character in it is
    no integer literal, wherever the character stands. *)
Lemma int_ascii_foreign (s : string) :
  has_foreign s = true -> int_ascii s = None.
Proof.
  intros H. apply lstrip_foreign in H. unfold int_ascii.
  destruct (lstrip s) as [|c rest]; [discriminate|].
  assert (Hall : forall acc b, scan_digits acc b (String c rest) = None)
    by (intros; by apply scan_digits_foreign).
  cbn [has_foreign] in H.
  destruct (Ascii.eqb c "-") eqn:Hm; [apply Ascii.eqb_eq in Hm as ->|].
  { rewrite scan_digits_foreign; [reflexivity|]. exact H. }
  destruct (Ascii.eqb c "+") eqn:Hp; [apply Ascii.eqb_eq in Hp as ->|].
  { apply scan_digits_foreign. exact H. }
  transitivity (scan_digits 0 false (String c rest)); [|apply Hall].
  apply Ascii.eqb_neq in Hm, Hp.
  destruct c as [[] [] [] [] [] [] [] []]; try reflexivity; congruence.
Qed.

Section StartupProperties.

Variable int_of_str : string -> option Z.
Variable stdout_encodes : string -> bool.

(** The block reads three variables and nothing else. *)
Lemma main_unfold (env : gmap string string) :
  main int_of_str stdout_encodes env =
  match int int_of_str (getenv env "CV_PORT" 8000) with
  | None => Raised ValueError
  | Some port =>
      let host := default "0.0.0.0" (env !! "CV_HOST") in
      if stdout_encodes (banner host port) then
        Serving (banner host port)
          {| run_app := "main:app";
             run_host := host;
             run_port := port;
             run_reload := bool_decide (env !! "ENV" = Some "development") |}
      else Raised UnicodeEncodeError
  end.
Proof.
  unfold main, getenv.
  destruct (int int_of_str _) as [port|]; [|reflexivity].
  destruct (env !! "CV_HOST"); simpl; destruct (stdout_encodes _);
    try reflexivity; by case_decide; case_bool_decide.
Qed.

Lemma getenv_set_ENV {A : Type} (v : option string) (env : gmap string string)
    (key : string) (dflt : A) :
  key <> "ENV" -> getenv (set_ENV v env) key dflt = getenv env key dflt.
Proof.
  intros Hne. unfold getenv, set_ENV.
  by rewrite lookup_partial_alter_ne.
Qed.

Lemma main_set_ENV (v : option string) (env : gmap string string) :
  main int_of_str stdout_encodes (set_ENV v env) =
  match int int_of_str (getenv env "CV_PORT" 8000) with
  | None => Raised ValueError
  | Some port =>
      let host := default "0.0.0.0" (env !! "CV_HOST") in
      if stdout_encodes (banner host port) then
        Serving (banner host port)
          {| run_app := "main:app";
             run_host := host;
             run_port := port;
             run_reload := bool_decide (v = Some "development") |}
      else Raised UnicodeEncodeError
  end.
Proof.
  rewrite main_unfold, getenv_set_ENV by done.
  unfold set_ENV.
  rewrite lookup_partial_alter_eq, lookup_partial_alter_ne by done.
  reflexivity.
Qed.

End StartupProperties.

(** C5: the value of [ENV], or its absence, changes no answer of the
    application (root, health, process-video, analyze-frame); at startup
    it changes nothing but the [reload] argument, which is [True] exactly
    for the value "development". *)
Theorem ENV_only_sets_reload (int_of_str : string -> option Z)
    (stdout_encodes : string -> bool)
    (w : World) (v1 v2 : option string) (req : Request) :
  app (with_environ (set_ENV v1 (environ w)) w) req
  = app (with_environ (set_ENV v2 (environ w)) w) req
  /\ drop_reload (main int_of_str stdout_encodes (set_ENV v1 (environ w)))
     = drop_reload (main int_of_str stdout_encodes (set_ENV v2 (environ w)))
  /\ (forall out call,
        main int_of_str stdout_encodes (set_ENV v1 (environ w))
        = Serving out call ->
        run_reload call = bool_decide (v1 = Some "development")).
Proof.
  split; [apply app_world_irrelevant|].
  rewrite !main_set_ENV.
  destruct (int int_of_str _) as [port|]; [|by split].
  cbv zeta. destruct (stdout_encodes (banner _ port)); split; try done.
  by intros out call [= <- <-].
Qed.

Lemma ENV_only_sets_reload_witness :
  main int_ascii utf8_stdout (set_ENV (Some "development") ∅)
  = Serving (banner "0.0.0.0" 8000) (mkRun "main:app" "0.0.0.0" 8000 true)
  /\ main int_ascii utf8_stdout (set_ENV (Some "production") ∅)
     = Serving (banner "0.0.0.0" 8000) (mkRun "main:app" "0.0.0.0" 8000 false)
  /\ run_reload (mkRun "main:app" "0.0.0.0" 8000 true)
     = bool_decide (Some "development" = Some "development").
Proof.
  split; [reflexivity|]. split; [reflexivity|].
  apply (proj2 (proj2 (ENV_only_sets_reload int_ascii utf8_stdout idle_world
                         (Some "development") (Some "production")
                         health_request))
           (banner "0.0.0.0" 8000)).
  reflexivity.
Defined.




(** * Further properties of the module *)

(** ** The route table *)

(** An answer comes from a route whose method is that of the request and
    whose pattern matches its path. *)
Lemma app_Some_route (w : World) (req : Request) (resp : json) :
  app w req = Some resp ->
  exists r,
    In r routes /\ meth req = route_method r
    /\ path_matches (route_path r) (path req) = true
    /\ resp = endpoint r w.
Proof.
  unfold app. destruct (List.find (route_matches req) routes) as [r|] eqn:Hf;
    [|discriminate].
  intros [= <-]. apply List.find_some in Hf as [Hin Hm].
  unfold route_matches in Hm. apply andb_prop in Hm as [Hm Hp].
  apply bool_decide_eq_true in Hm. by exists r.
Qed.

(** No path matches the patterns of two routes. *)
Lemma route_same_path (s : string) (r1 r2 : route) :
  In r1 routes -> In r2 routes ->
  path_matches (route_path r1) s = true ->
  path_matches (route_path r2) s = true -> r1 = r2.
Proof.
  unfold routes. simpl. intros H1 H2 P1 P2.
  apply path_matches_inv in P1, P2.
  destruct H1 as [<-|[<-|[<-|[<-|[]]]]];
    destruct H2 as [<-|[<-|[<-|[<-|[]]]]];
    try reflexivity; simpl in P1, P2;
    destruct P1 as [->| ->]; destruct P2 as [P2|P2]; discriminate.
Qed.

Lemma route_matches_unique (req : Request) (r1 r2 : route) :
  In r1 routes -> In r2 routes ->
  route_matches req r1 = true -> route_matches req r2 = true -> r1 = r2.
Proof.
  unfold route_matches. intros H1 H2 M1 M2.
  apply andb_prop in M1 as [_ P1]. apply andb_prop in M2 as [_ P2].
  by apply (route_same_path (path req)).
Qed.

Lemma find_unique_perm {A : Type} (p : A -> bool) (l l' : list A) :
  Permutation l l' ->
  (forall x y, In x l -> In y l -> p x = true -> p y = true -> x = y) ->
  List.find p l = List.find p l'.
Proof.
  induction 1 as [|x l l' Hperm IH|x y l|l l' l'' H1 IH1 H2 IH2];
    intros Huniq; simpl.
  - reflexivity.
  - destruct (p x); [reflexivity|].
    apply IH. intros a b Ha Hb. apply Huniq; simpl; auto.
  - destruct (p x) eqn:Hx, (p y) eqn:Hy; try reflexivity.
    f_equal. apply Huniq; simpl; auto.
  - rewrite IH1 by exact Huniq. apply IH2.
    intros a b Ha Hb.
    apply Huniq; (eapply Permutation_in; [apply Permutation_sym, H1|assumption]).
Qed.

Lemma route_method_cases (r : route) :
  In r routes -> route_method r = GET \/ route_method r = POST.
Proof.
  unfold routes. simpl. intros [<-|[<-|[<-|[<-|[]]]]]; simpl; auto.
Qed.

(** X1: no request matches two routes, so the order in which the
    decorators register the handlers plays no part: dispatching over the
    routes in any other order gives the answers of [app]. *)
Theorem registration_order_irrelevant (rs : list route) (w : World)
    (req : Request) :
  Permutation rs routes -> serve rs w req = app w req.
Proof.
  intros Hperm. unfold serve, app.
  rewrite (find_unique_perm (route_matches req) rs routes Hperm); [reflexivity|].
  intros r1 r2 H1 H2.
  apply route_matches_unique; eapply Permutation_in; eauto.
Qed.

Lemma registration_order_irrelevant_witness :
  serve (rev routes) idle_world upload_request = app idle_world upload_request.
Proof.
  apply (registration_order_irrelevant (rev routes) idle_world upload_request).
  apply Permutation_sym, Permutation_rev.
Defined.

(** X2: a handler answers only GET and POST requests, and every served
    path is served under one method only: the same path with any other
    method is left to the framework. *)
Theorem one_method_per_path (w w' : World) (req req' : Request) (resp : json) :
  app w req = Some resp ->
  (meth req = GET \/ meth req = POST)
  /\ (path req' = path req -> meth req' <> meth req -> app w' req' = None).
Proof.
  intros H. apply app_Some_route in H as (r & Hin & Hm & Hp & _). split.
  - rewrite Hm. by apply route_method_cases.
  - intros Hp' Hm'.
    destruct (app w' req') as [resp'|] eqn:H'; [|reflexivity].
    apply app_Some_route in H' as (r' & Hin' & Hm2 & Hp2 & _).
    rewrite Hp' in Hp2.
    assert (r' = r) as -> by (by apply (route_same_path (path req))).
    congruence.
Qed.

Lemma one_method_per_path_witness :
  (meth health_request = GET \/ meth health_request = POST)
  /\ app idle_world
       {| meth := POST; path := "/health"; query := []; headers := [];
          body := "" |} = None.
Proof.
  destruct (one_method_per_path idle_world idle_world health_request
              {| meth := POST; path := "/health"; query := []; headers := [];
                 body := "" |}
              (health_check idle_world) eq_refl) as [Hm Hnone].
  split; [exact Hm|]. apply Hnone; [reflexivity|discriminate].
Defined.

(** X3: the directory in the answer of [root] is accurate: a path is
    listed under [endpoints] exactly when it is the path that a decorator
    other than the one of [root] registers, and a request on a listed
    path, under the method of its route, is answered by the handler of
    that route. *)
Theorem root_directory_accurate (w : World) (p : string) :
  (advertised w p <-> p <> "/" /\ exists r, In r routes /\ route_path r = p)
  /\ (advertised w p ->
      exists r,
        In r routes /\ route_path r = p
        /\ forall w' req,
             meth req = route_method r ->
             path_matches p (path req) = true ->
             app w' req = Some (endpoint r w')).
Proof.
  assert (Hfwd : advertised w p ->
            p <> "/"
            /\ exists r,
                 In r routes /\ route_path r = p
                 /\ forall w' req,
                      meth req = route_method r ->
                      path_matches p (path req) = true ->
                      app w' req = Some (endpoint r w')).
  { intros (dir & name & Hdir & Hname). injection Hdir as <-.
    simpl in Hname.
    repeat match type of Hname with
           | (if ?b then _ else _) = _ => destruct b
           end; try discriminate; injection Hname as <-;
      (split; [discriminate|]).
    - exists (mkRoute GET "/health" health_check).
      split; [unfold routes; simpl; auto|]. split; [reflexivity|].
      intros w' req Hm Hp. by apply app_health_check_match.
    - exists (mkRoute POST "/api/v1/process-video" process_video).
      split; [unfold routes; simpl; auto|]. split; [reflexivity|].
      intros w' req Hm Hp. by apply app_process_video_match.
    - exists (mkRoute POST "/api/v1/analyze-frame" analyze_frame).
      split; [unfold routes; simpl; tauto|]. split; [reflexivity|].
      intros w' req Hm Hp. by apply app_analyze_frame_match. }
  split; [split|].
  - intros H. apply Hfwd in H as (Hne & r & Hin & Hp & _). eauto.
  - intros (Hne & r & Hin & <-).
    exists (JObj [ ("health", JStr "/health");
                   ("process_video", JStr "/api/v1/process-video");
                   ("analyze_frame", JStr "/api/v1/analyze-frame") ]).
    unfold routes in Hin. simpl in Hin.
    destruct Hin as [<-|[<-|[<-|[<-|[]]]]]; simpl in *.
    + by destruct Hne.
    + by exists "health".
    + by exists "process_video".
    + by exists "analyze_frame".
  - intros H. apply Hfwd in H as (_ & r & Hin & Hp & Hans). eauto.
Qed.

Lemma root_directory_accurate_witness :
  advertised idle_world "/health"
  /\ exists r,
       In r routes /\ route_path r = "/health"
       /\ forall w' req,
            meth req = route_method r ->
            path_matches "/health" (path req) = true ->
            app w' req = Some (endpoint r w').
Proof.
  assert (H : advertised idle_world "/health").
  { apply (proj2 (proj1 (root_directory_accurate idle_world "/health"))).
    split; [discriminate|].
    exists (mkRoute GET "/health" health_check).
    split; [|reflexivity]. unfold routes. simpl. auto. }
  split; [exact H|].
  exact (proj2 (root_directory_accurate idle_world "/health") H).
Defined.

(** X4: every answer of the application carries a string under [status],
    and that string is "not_implemented" exactly for the requests to the
    two analysis routes: a client can tell from it that root and health
    are implemented and the analysis is not. *)
Theorem status_marks_placeholders (w : World) (req : Request) (resp : json) :
  app w req = Some resp ->
  exists s,
    field "status" resp = Some (JStr s)
    /\ (s = "not_implemented" <-> is_analysis_request req = true).
Proof.
  intros H. apply app_Some_route in H as (r & Hin & Hm & Hp & ->).
  unfold is_analysis_request. rewrite Hm.
  apply path_matches_inv in Hp.
  unfold routes in Hin. simpl in Hin.
  destruct Hin as [<-|[<-|[<-|[<-|[]]]]]; simpl in Hp; destruct Hp as [->| ->];
    simpl; eexists; (split; [reflexivity|]);
    split; (reflexivity || discriminate).
Qed.

Lemma status_marks_placeholders_witness :
  exists s,
    field "status" (root idle_world) = Some (JStr s)
    /\ (s = "not_implemented"
        <-> is_analysis_request
              {| meth := GET; path := "/"; query := []; headers := [];
                 body := "" |} = true).
Proof.
  apply (status_marks_placeholders idle_world
           {| meth := GET; path := "/"; query := []; headers := [];
              body := "" |}).
  reflexivity.
Defined.

(** ** Startup, continued *)

(** X5: with the interpreter's settings fixed (how [int] converts a
    text, what the standard output can encode), the block depends on
    [os.environ] through [CV_PORT], [CV_HOST] and [ENV] only: two
    environments that agree on the three give the same outcome, whatever
    else they hold, for instance what [load_dotenv()] merged in. *)
Theorem main_reads_three_variables (int_of_str : string -> option Z)
    (stdout_encodes : string -> bool) (env1 env2 : gmap string string) :
  env1 !! "CV_PORT" = env2 !! "CV_PORT" ->
  env1 !! "CV_HOST" = env2 !! "CV_HOST" ->
  env1 !! "ENV" = env2 !! "ENV" ->
  main int_of_str stdout_encodes env1 = main int_of_str stdout_encodes env2.
Proof.
  intros Hport Hhost Henv. rewrite !main_unfold. unfold getenv.
  by rewrite Hport, Hhost, Henv.
Qed.

Lemma main_reads_three_variables_witness :
  main int_ascii ascii_stdout shell_environ
  = main int_ascii ascii_stdout
      (<[ "HOME" := "/root" ]> (delete "PATH" shell_environ)).
Proof.
  apply (main_reads_three_variables int_ascii ascii_stdout shell_environ
           (<[ "HOME" := "/root" ]> (delete "PATH" shell_environ)));
    reflexivity.
Defined.

(** X6: when the service starts, the banner names exactly the host and
    the port handed to [uvicorn.run], the application is "main:app", and a
    [CV_HOST] that is set is passed on as it is, the empty text included:
    the default host stands in only for an unset variable. *)
Theorem banner_reports_run_arguments (int_of_str : string -> option Z)
    (stdout_encodes : string -> bool)
    (env : gmap string string) (out : string) (call : uvicorn_run) :
  main int_of_str stdout_encodes env = Serving out call ->
  out = banner (run_host call) (run_port call)
  /\ run_app call = "main:app"
  /\ (forall h, env !! "CV_HOST" = Some h -> run_host call = h).
Proof.
  rewrite main_unfold.
  destruct (int int_of_str _) as [port|]; [|discriminate].
  cbv zeta. destruct (stdout_encodes (banner _ port)); [|discriminate].
  intros [= <- <-]. simpl. repeat split. by intros h ->.
Qed.

Lemma banner_reports_run_arguments_witness :
  banner "" 9000 = banner "" 9000
  /\ run_app (mkRun "main:app" "" 9000 false) = "main:app"
  /\ (forall h,
        (<[ "CV_HOST" := "" ]> shell_environ) !! "CV_HOST" = Some h ->
        run_host (mkRun "main:app" "" 9000 false) = h).
Proof.
  apply (banner_reports_run_arguments int_ascii utf8_stdout
           (<[ "CV_HOST" := "" ]> shell_environ)
           (banner "" 9000) (mkRun "main:app" "" 9000 false)).
  reflexivity.
Defined.

(** *** [int_ascii] and the decimal printer *)

Lemma int_ascii_unfold (s : string) :
  int_ascii s =
  match lstrip s with
  | String c rest =>
      if Ascii.eqb c "-" then Z.opp <$> scan_digits 0 false rest
      else if Ascii.eqb c "+" then scan_digits 0 false rest
      else scan_digits 0 false (String c rest)
  | EmptyString => scan_digits 0 false EmptyString
  end.
Proof.
  unfold int_ascii. destruct (lstrip s) as [|c rest]; [reflexivity|].
  destruct c as [[] [] [] [] [] [] [] []]; reflexivity.
Qed.

Lemma lstrip_all_space (s : string) :
  all_space s = true -> lstrip s = EmptyString.
Proof.
  induction s as [|c rest IH]; [reflexivity|]. simpl.
  intros H. apply andb_prop in H as [-> H]. by apply IH.
Qed.

Lemma int_ascii_blank (s : string) :
  all_space s = true -> int_ascii s = None.
Proof. intros H. by rewrite int_ascii_unfold, lstrip_all_space. Qed.

Lemma digit_value_char (c : ascii) (d : Z) :
  digit_value c = Some d ->
  is_space c = false /\ Ascii.eqb c "-" = false /\ Ascii.eqb c "+" = false.
Proof.
  destruct c as [[] [] [] [] [] [] [] []]; vm_compute; intros H;
    (discriminate || auto).
Qed.

Lemma digit_value_pretty_N_char (d : N) :
  (d < 10)%N -> digit_value (pretty_N_char d) = Some (Z.of_N d).
Proof.
  intros Hd.
  assert (d = 0 \/ d = 1 \/ d = 2 \/ d = 3 \/ d = 4 \/ d = 5 \/ d = 6
          \/ d = 7 \/ d = 8 \/ d = 9)%N as H by lia.
  repeat destruct H as [->|H]; try subst d; reflexivity.
Qed.

(** Reading back the digits the printer wrote in front of [s]. *)
Lemma scan_digits_pretty_N_go (x : N) :
  (0 < x)%N ->
  forall s b,
    scan_digits 0 b (pretty_N_go x s) = scan_digits (Z.of_N x) true s.
Proof.
  induction (N.lt_wf_0 x) as [x _ IH]. intros Hx s b.
  rewrite pretty_N_go_step by exact Hx.
  assert (Hd : (x `mod` 10 < 10)%N) by (apply N.mod_lt; lia).
  pose proof (N.div_mod x 10 ltac:(lia)) as Hdm.
  destruct (decide (x `div` 10 = 0)%N) as [Hz|Hnz].
  - rewrite Hz, pretty_N_go_0. cbn [scan_digits].
    rewrite digit_value_pretty_N_char by exact Hd. f_equal. lia.
  - rewrite IH; [|apply N.div_lt; lia|lia]. cbn [scan_digits].
    rewrite digit_value_pretty_N_char by exact Hd. f_equal. lia.
Qed.

Lemma pretty_N_go_head (x : N) :
  (0 < x)%N ->
  forall s, exists c rest d,
    pretty_N_go x s = String c rest /\ digit_value c = Some d.
Proof.
  induction (N.lt_wf_0 x) as [x _ IH]. intros Hx s.
  rewrite pretty_N_go_step by exact Hx.
  destruct (decide (x `div` 10 = 0)%N) as [Hz|Hnz].
  - rewrite Hz, pretty_N_go_0. eexists _, _, _. split; [reflexivity|].
    apply digit_value_pretty_N_char, N.mod_lt. discriminate.
  - apply IH; [apply N.div_lt; lia|by apply N.neq_0_lt_0].
Qed.

Lemma int_ascii_pretty_pos (p : positive) :
  int_ascii (pretty (Npos p)) = Some (Zpos p)
  /\ scan_digits 0 false (pretty (Npos p)) = Some (Zpos p).
Proof.
  assert (Hscan : scan_digits 0 false (pretty (Npos p)) = Some (Zpos p)).
  { unfold pretty, pretty_N. rewrite decide_False by discriminate.
    by rewrite scan_digits_pretty_N_go. }
  split; [|exact Hscan].
  rewrite int_ascii_unfold.
  destruct (pretty_N_go_head (Npos p) ltac:(lia) "") as (c & rest & d & Hs & Hc).
  assert (Hp : pretty (Npos p) = String c rest).
  { unfold pretty, pretty_N. by rewrite decide_False by discriminate. }
  rewrite Hp in *. cbn [lstrip].
  apply digit_value_char in Hc as (-> & -> & ->). exact Hscan.
Qed.

(** [int(str(n))] is [n]. *)
Lemma int_ascii_pretty (n : Z) : int_ascii (pretty n) = Some n.
Proof.
  destruct n as [|p|p]; [reflexivity|apply int_ascii_pretty_pos|].
  change (pretty (Zneg p)) with (String "-" (pretty (Npos p))).
  rewrite int_ascii_unfold. cbn [lstrip]. simpl.
  by rewrite (proj2 (int_ascii_pretty_pos p)).
Qed.

(** ** Startup on ASCII configuration *)

(** X7: a [CV_PORT] that is set but empty, or holds white space only, does
    not fall back to the default port: [int] raises [ValueError] and the
    service does not start. *)
Theorem blank_port_is_fatal (stdout_encodes : string -> bool)
    (env : gmap string string) (s : string) :
  env !! "CV_PORT" = Some s -> all_space s = true ->
  main int_ascii stdout_encodes env = Raised ValueError.
Proof.
  intros Hport Hs. rewrite main_unfold. unfold getenv. rewrite Hport. simpl.
  by rewrite int_ascii_blank.
Qed.

Lemma blank_port_is_fatal_witness :
  main int_ascii utf8_stdout (<[ "CV_PORT" := "" ]> shell_environ)
  = Raised ValueError.
Proof.
  apply (blank_port_is_fatal utf8_stdout
           (<[ "CV_PORT" := "" ]> shell_environ) "");
    reflexivity.
Defined.

(** X8: a [CV_PORT] of printable ASCII text that holds, anywhere, a
    character other than a digit, a sign, an underscore or a space (a
    letter, a dot, a colon, a slash) keeps the service from starting. *)
Theorem malformed_port_is_fatal (stdout_encodes : string -> bool)
    (env : gmap string string) (s : string) :
  env !! "CV_PORT" = Some s -> printable s = true -> has_foreign s = true ->
  main int_ascii stdout_encodes env = Raised ValueError.
Proof.
  intros Hport _ Hs. rewrite main_unfold. unfold getenv. rewrite Hport. simpl.
  by rewrite int_ascii_foreign.
Qed.

Lemma malformed_port_is_fatal_witness :
  main int_ascii utf8_stdout (<[ "CV_PORT" := "8000/tcp" ]> shell_environ)
  = Raised ValueError.
Proof.
  apply (malformed_port_is_fatal utf8_stdout
           (<[ "CV_PORT" := "8000/tcp" ]> shell_environ) "8000/tcp");
    reflexivity.
Defined.



(** X10: the reported configuration reproduces itself: writing the host
    and the port of a successful start back into [CV_HOST] and [CV_PORT]
    (the port in decimal) starts the service with the same banner and the
    same arguments. *)
Theorem reported_configuration_reproduces (stdout_encodes : string -> bool)
    (env : gmap string string) (out : string) (call : uvicorn_run) :
  main int_ascii stdout_encodes env = Serving out call ->
  within_digit_cap (run_port call) ->
  main int_ascii stdout_encodes
    (<[ "CV_PORT" := pretty (run_port call) ]>
       (<[ "CV_HOST" := run_host call ]> env))
  = Serving out call.
Proof.
  intros Hmain _. revert Hmain. rewrite !main_unfold. unfold getenv.
  rewrite lookup_insert_eq, !(lookup_insert_ne _ "CV_PORT") by done.
  rewrite lookup_insert_eq, lookup_insert_ne by done.
  destruct (int int_ascii _) as [port|]; [|discriminate].
  cbv zeta. destruct (stdout_encodes (banner _ port)) eqn:Hout; [|discriminate].
  intros [= <- <-]. simpl. by rewrite int_ascii_pretty, Hout.
Qed.

Lemma reported_configuration_reproduces_witness :
  main int_ascii utf8_stdout
    (<[ "CV_PORT" := pretty 9000 ]>
       (<[ "CV_HOST" := "127.0.0.1" ]>
          (<[ "CV_PORT" := " +09_000 " ]> shell_environ)))
  = Serving (banner "127.0.0.1" 9000) (mkRun "main:app" "127.0.0.1" 9000 false).
Proof.
  apply (reported_configuration_reproduces utf8_stdout
           (<[ "CV_PORT" := " +09_000 " ]> shell_environ)
           (banner "127.0.0.1" 9000)
           (mkRun "main:app" "127.0.0.1" 9000 false)).
  - reflexivity.
  - vm_compute. reflexivity.
Defined.
